(** * NCDS design tokens (src/design/NCDS.hpp): a shallow embedding

    The header declares, in namespace [nzt::gui::design], the primitives
    [Color], [FontWeight] and [FontSpec], the colour [palette], the
    [typography] table and the component [tokens].  Everything is
    [constexpr]: the embedding is a set of closed Rocq terms.

    Integer types are carried by [Z] with the conversion to the machine
    width written out ([to_u8]); [float] is IEEE binary32, carried
    by [spec_float] with precision 24 and maximal exponent 128. *)

From Stdlib Require Import ZArith Lia Bool String List QArith Sorted.
From Stdlib Require Import Floats.SpecFloat.

Local Open Scope Z_scope.

(** ** Machine integers *)

Definition to_u8 (x : Z) : Z := x mod 256.

Definition is_u8 (x : Z) : Prop := 0 <= x < 256.
Definition is_u32 (x : Z) : Prop := 0 <= x < 4294967296.

(** [0xFF] in [(hex >> k) & 0xFF]. *)
Definition xFF : Z := 255.

(** ** binary32 *)

Module f32.

Definition prec : Z := 24.
Definition emax : Z := 128.

(** A literal such as [44.0f] denotes the binary32 nearest to the decimal;
    the literals of this header are all whole numbers. *)
Definition of_Z (n : Z) : spec_float := binary_normalize prec emax n 0 false.

(** The operator [<] on [float]. *)
Definition ltb (x y : spec_float) : bool := SFltb x y.

(** The rational a finite binary32 stands for. *)
Definition to_Q (x : spec_float) : option Q :=
  match x with
  | S754_zero _ => Some 0%Q
  | S754_finite s m e =>
      let v := if s then Z.neg m else Z.pos m in
      Some (Qred (inject_Z v * Qpower 2 e))
  | _ => None
  end.

Definition valid (x : spec_float) : bool := valid_binary prec emax x.

(** The operator [==] on [float]. *)
Definition eqb (x y : spec_float) : bool := SFeqb x y.

End f32.

(** ** 1. Primitives *)

Module Color.

(** [struct Color { uint8_t r, g, b, a; }] *)
Record t : Set := Build { r : Z; g : Z; b : Z; a : Z }.

(** The default argument [alpha = 255]. *)
Definition default_alpha : Z := 255.

(** [constexpr Color(uint8_t red, uint8_t green, uint8_t blue,
                     uint8_t alpha = 255)]; an omitted [alpha] is [None]. *)
Definition Color (red green blue : Z) (alpha : option Z) : t :=
  Build red green blue
        (match alpha with Some al => al | None => default_alpha end).

(** [static constexpr Color fromHex(uint32_t hex, uint8_t alpha = 255)].
    The three channel expressions have type [uint32_t] and are narrowed to
    [uint8_t] where they are passed to the constructor. *)
Definition fromHex (hex : Z) (alpha : option Z) : t :=
  Color (to_u8 (Z.land (Z.shiftr hex 16) xFF))
        (to_u8 (Z.land (Z.shiftr hex 8) xFF))
        (to_u8 (Z.land hex xFF))
        alpha.

(** Every field holds a [uint8_t]. *)
Definition valid (c : t) : Prop :=
  is_u8 (r c) /\ is_u8 (g c) /\ is_u8 (b c) /\ is_u8 (a c).

(** Each of the four channels of [c] is greater than that of [d]. *)
Definition every_channel_gt (c d : t) : Prop :=
  r d < r c /\ g d < g c /\ b d < b c /\ a d < a c.

(** Each of the three colour channels of [c] is greater than that of [d]. *)
Definition rgb_gt (c d : t) : Prop :=
  r d < r c /\ g d < g c /\ b d < b c.

End Color.

(** [enum class FontWeight { Regular = 400, Medium = 500, Bold = 700 }] *)
Inductive FontWeight : Set := Regular | Medium | Bold.

(** The enumerator's value, [static_cast<int>(w)]. *)
Definition FontWeight_value (w : FontWeight) : Z :=
  match w with
  | Regular => 400
  | Medium => 500
  | Bold => 700
  end.

(** [struct FontSpec] *)
Module FontSpec.
Record t : Set := Build
  { family : string; size : spec_float; lineHeight : spec_float;
    weight : FontWeight }.
End FontSpec.

(** ** 2. Foundation: colour palette *)

Module palette.

Definition Red500 : Color.t := Color.fromHex 0xEC1D31 None.
Definition Red600 : Color.t := Color.fromHex 0xCF1722 None.
Definition Red700 : Color.t := Color.fromHex 0xB7131C None.

Definition White   : Color.t := Color.fromHex 0xFFFFFF None.
Definition Gray50  : Color.t := Color.fromHex 0xF8FAFC None.
Definition Gray100 : Color.t := Color.fromHex 0xF1F5F9 None.
Definition Gray200 : Color.t := Color.fromHex 0xE2E8F0 None.
Definition Gray300 : Color.t := Color.fromHex 0xCBD5E1 None.
Definition Gray400 : Color.t := Color.fromHex 0x94A3B8 None.
Definition Gray500 : Color.t := Color.fromHex 0x64748B None.
Definition Gray600 : Color.t := Color.fromHex 0x475569 None.
Definition Gray700 : Color.t := Color.fromHex 0x334155 None.
Definition Gray800 : Color.t := Color.fromHex 0x1E293B None.
Definition Gray900 : Color.t := Color.fromHex 0x0F172A None.
Definition Black   : Color.t := Color.fromHex 0x000000 None.

Definition Green500  : Color.t := Color.fromHex 0x22C55E None.
Definition Orange500 : Color.t := Color.fromHex 0xF97316 None.
Definition Blue500   : Color.t := Color.fromHex 0x3B82F6 None.
Definition Violet500 : Color.t := Color.fromHex 0x8B5CF6 None.

(** Every constant of the namespace beside the literal it is built from. *)
Definition entries : list (Color.t * Z) :=
  (Red500, 0xEC1D31) :: (Red600, 0xCF1722) :: (Red700, 0xB7131C) ::
  (White, 0xFFFFFF) :: (Gray50, 0xF8FAFC) :: (Gray100, 0xF1F5F9) ::
  (Gray200, 0xE2E8F0) :: (Gray300, 0xCBD5E1) :: (Gray400, 0x94A3B8) ::
  (Gray500, 0x64748B) :: (Gray600, 0x475569) :: (Gray700, 0x334155) ::
  (Gray800, 0x1E293B) :: (Gray900, 0x0F172A) :: (Black, 0x000000) ::
  (Green500, 0x22C55E) :: (Orange500, 0xF97316) :: (Blue500, 0x3B82F6) ::
  (Violet500, 0x8B5CF6) :: nil.

(** The neutrals in the order they are declared, [White] first and [Black]
    last. *)
Definition grays : list Color.t :=
  White :: Gray50 :: Gray100 :: Gray200 :: Gray300 :: Gray400 :: Gray500 ::
  Gray600 :: Gray700 :: Gray800 :: Gray900 :: Black :: nil.

End palette.

(** ** 3. Foundation: typography *)

Module typography.

Definition FontFamilySans : string := "Commerce Sans".
Definition FontFamilyInter : string := "Inter".

Definition DisplayXL_Bold : FontSpec.t :=
  FontSpec.Build FontFamilySans (f32.of_Z 48) (f32.of_Z 60) Bold.
Definition DisplayLG_Bold : FontSpec.t :=
  FontSpec.Build FontFamilySans (f32.of_Z 36) (f32.of_Z 44) Bold.
Definition DisplayMD_Bold : FontSpec.t :=
  FontSpec.Build FontFamilySans (f32.of_Z 30) (f32.of_Z 38) Bold.

Definition TextLG_Regular : FontSpec.t :=
  FontSpec.Build FontFamilyInter (f32.of_Z 18) (f32.of_Z 28) Regular.
Definition TextMD_Regular : FontSpec.t :=
  FontSpec.Build FontFamilyInter (f32.of_Z 16) (f32.of_Z 24) Regular.
Definition TextSM_Regular : FontSpec.t :=
  FontSpec.Build FontFamilyInter (f32.of_Z 14) (f32.of_Z 20) Regular.
Definition TextXS_Regular : FontSpec.t :=
  FontSpec.Build FontFamilyInter (f32.of_Z 12) (f32.of_Z 18) Regular.

(** The styles of the namespace in the order they are declared. *)
Definition styles : list FontSpec.t :=
  DisplayXL_Bold :: DisplayLG_Bold :: DisplayMD_Bold ::
  TextLG_Regular :: TextMD_Regular :: TextSM_Regular :: TextXS_Regular :: nil.

End typography.

(** ** 4. Components: token mapping *)

Module tokens.

Definition BorderRadiusSmall  : spec_float := f32.of_Z 4.
Definition BorderRadiusMedium : spec_float := f32.of_Z 8.
Definition BorderRadiusLarge  : spec_float := f32.of_Z 12.

(** [struct ButtonTheme] *)
Module ButtonTheme.
Record t : Set := Build
  { background : Color.t;
    text : Color.t;
    border : Color.t;
    backgroundHover : Color.t;
    backgroundPressed : Color.t }.
End ButtonTheme.

Definition ButtonPrimary : ButtonTheme.t :=
  ButtonTheme.Build
    (* bg *)      palette.Red500
    (* text *)    palette.White
    (* border *)  palette.Red500
    (* hover *)   palette.Red600
    (* pressed *) palette.Red700.

Definition ButtonSecondary : ButtonTheme.t :=
  ButtonTheme.Build
    (* bg *)      palette.White
    (* text *)    palette.Gray700
    (* border *)  palette.Gray300
    (* hover *)   palette.Gray50
    (* pressed *) palette.Gray100.

Definition ButtonHeightMD : spec_float := f32.of_Z 44.
Definition ButtonHeightSM : spec_float := f32.of_Z 36.
Definition ButtonHeightXS : spec_float := f32.of_Z 30.

(** [struct InputTheme] *)
Module InputTheme.
Record t : Set := Build
  { background : Color.t;
    text : Color.t;
    placeholder : Color.t;
    border : Color.t;
    borderFocus : Color.t;
    borderError : Color.t }.
End InputTheme.

Definition InputDefault : InputTheme.t :=
  InputTheme.Build
    (* bg *)          palette.White
    (* text *)        palette.Gray900
    (* placeholder *) palette.Gray400
    (* border *)      palette.Gray200
    (* focus *)       palette.Red500
    (* error *)       palette.Red500.

Definition InputHeight : spec_float := f32.of_Z 44.

(** [struct ToggleTheme] *)
Module ToggleTheme.
Record t : Set := Build
  { trackOff : Color.t; trackOn : Color.t; thumb : Color.t }.
End ToggleTheme.

Definition ToggleSwitch : ToggleTheme.t :=
  ToggleTheme.Build
    (* off *)   palette.Gray300
    (* on *)    palette.Red500
    (* thumb *) palette.White.

(** [struct ControlTheme] *)
Module ControlTheme.
Record t : Set := Build
  { borderUnchecked : Color.t;
    backgroundChecked : Color.t;
    checkmark : Color.t }.
End ControlTheme.

Definition CheckboxDefault : ControlTheme.t :=
  ControlTheme.Build
    (* border *) palette.Gray300
    (* bg *)     palette.Red500
    (* mark *)   palette.White.

End tokens.


(** * Properties *)

(** ** Bytes cut out of a word *)

Section Bytes.

Variable x : Z.

Lemma land_xFF_mod : Z.land x xFF = x mod 256.
Proof. change xFF with (Z.ones 8). now rewrite Z.land_ones. Qed.

Lemma land_xFF_u8 : is_u8 (Z.land x xFF).
Proof.
  unfold is_u8. rewrite land_xFF_mod.
  apply Z.mod_pos_bound. lia.
Qed.

Lemma to_u8_land_xFF : to_u8 (Z.land x xFF) = Z.land x xFF.
Proof. unfold to_u8. apply Z.mod_small, land_xFF_u8. Qed.

(** Masking the word to its low 24 bits first changes no byte that lies
    inside them. *)
Lemma byte_of_low24 (k : Z) :
  0 <= k <= 16 ->
  Z.land (Z.shiftr (Z.land x 0xFFFFFF) k) xFF = Z.land (Z.shiftr x k) xFF.
Proof.
  intros Hk. apply Z.bits_inj'. intros n Hn.
  rewrite !Z.land_spec, !Z.shiftr_spec, Z.land_spec by assumption.
  change xFF with (Z.ones 8). change 0xFFFFFF with (Z.ones 24).
  rewrite !Z.testbit_ones_nonneg by lia.
  destruct (Z.ltb_spec n 8) as [Hlt | Hge].
  - replace (n + k <? 24) with true by (symmetry; apply Z.ltb_lt; lia).
    now rewrite andb_true_r.
  - now rewrite !andb_false_r.
Qed.

End Bytes.

Lemma to_u8_is_u8 (x : Z) : is_u8 (to_u8 x).
Proof. unfold is_u8, to_u8. apply Z.mod_pos_bound. lia. Qed.

(** The three bytes put back together give the 24-bit word. *)
Lemma fromHex_recompose (h : Z) (alpha : option Z) :
  0 <= h < 2 ^ 24 ->
  Color.r (Color.fromHex h alpha) * 65536
  + Color.g (Color.fromHex h alpha) * 256
  + Color.b (Color.fromHex h alpha) = h.
Proof.
  intros Hh. cbn [Color.fromHex Color.Color Color.r Color.g Color.b].
  rewrite !to_u8_land_xFF, !land_xFF_mod, !Z.shiftr_div_pow2 by lia.
  change (2 ^ 16) with 65536. change (2 ^ 8) with 256.
  change (2 ^ 24) with 16777216 in Hh.
  pose proof (Z.div_mod h 256 ltac:(lia)) as E1.
  pose proof (Z.div_mod (h / 256) 256 ltac:(lia)) as E2.
  rewrite Z.div_div in E2 by lia. change (256 * 256) with 65536 in E2.
  assert (0 <= h / 65536 < 256) as B
      by (split; [apply Z.div_pos; lia | apply Z.div_lt_upper_bound; lia]).
  rewrite (Z.mod_small (h / 65536)) by exact B.
  lia.
Qed.

(** ** [Color] and [Color::fromHex] *)

(** C1. For a 24-bit [h] and an alpha [al], [fromHex(h, al)] has red
    [(h >> 16) & 0xFF], green [(h >> 8) & 0xFF], blue [h & 0xFF] and alpha
    [al]; and [fromHex(0xEC1D31)] with the alpha defaulted is
    [Color(236, 29, 49, 255)]. *)
Theorem fromHex_channels (h al : Z) :
  0 <= h < 2 ^ 24 ->
  is_u8 al ->
  (Color.r (Color.fromHex h (Some al)) = Z.land (Z.shiftr h 16) 0xFF
   /\ Color.g (Color.fromHex h (Some al)) = Z.land (Z.shiftr h 8) 0xFF
   /\ Color.b (Color.fromHex h (Some al)) = Z.land h 0xFF
   /\ Color.a (Color.fromHex h (Some al)) = al)
  /\ Color.fromHex 0xEC1D31 None = Color.Color 236 29 49 (Some 255).
Proof.
  intros _ _. split; [| reflexivity].
  cbn [Color.fromHex Color.Color Color.r Color.g Color.b Color.a].
  rewrite !to_u8_land_xFF. repeat split.
Qed.

Lemma fromHex_channels_witness :
  (0 <= 0x94A3B8 < 2 ^ 24 /\ is_u8 128)
  /\ (Color.r (Color.fromHex 0x94A3B8 (Some 128)) = 0x94
      /\ Color.g (Color.fromHex 0x94A3B8 (Some 128)) = 0xA3
      /\ Color.b (Color.fromHex 0x94A3B8 (Some 128)) = 0xB8
      /\ Color.a (Color.fromHex 0x94A3B8 (Some 128)) = 128).
Proof.
  split.
  - unfold is_u8. lia.
  - apply (fromHex_channels 0x94A3B8 128); unfold is_u8; lia.
Defined.

(** C2. [fromHex] has no error case: on every 32-bit [h] and 8-bit [al] it
    returns a [Color] all of whose channels are bytes, with the alpha given or
    defaulted, and the bits of [h] above the low 24 do not matter:
    [fromHex(h, al)] is [fromHex(h & 0xFFFFFF, al)]. *)
Theorem fromHex_total_low24 (h al : Z) :
  is_u32 h ->
  is_u8 al ->
  (exists c, Color.fromHex h (Some al) = c /\ Color.valid c)
  /\ (exists c, Color.fromHex h None = c /\ Color.valid c)
  /\ Color.fromHex h (Some al) = Color.fromHex (Z.land h 0xFFFFFF) (Some al)
  /\ Color.fromHex h None = Color.fromHex (Z.land h 0xFFFFFF) None.
Proof.
  intros _ Hal.
  assert (forall oa, Color.fromHex h oa = Color.fromHex (Z.land h 0xFFFFFF) oa)
    as Hmask.
  { intros oa. unfold Color.fromHex.
    rewrite <- (Z.shiftr_0_r h), <- (Z.shiftr_0_r (Z.land h 0xFFFFFF)) at 3.
    now rewrite !byte_of_low24 by lia. }
  assert (forall oa, is_u8 (Color.a (Color.Color 0 0 0 oa)) ->
                     Color.valid (Color.fromHex h oa)) as Hvalid.
  { intros oa Ha. unfold Color.valid.
    cbn [Color.fromHex Color.Color Color.r Color.g Color.b Color.a] in *.
    auto using to_u8_is_u8. }
  repeat split; auto.
  - eexists; split; [reflexivity |]. apply Hvalid. exact Hal.
  - eexists; split; [reflexivity |]. apply Hvalid.
    cbn. unfold Color.default_alpha, is_u8. lia.
Qed.

Lemma fromHex_total_low24_witness :
  (is_u32 0xFFEC1D31 /\ is_u8 128)
  /\ Color.fromHex 0xFFEC1D31 (Some 128) = Color.fromHex 0xEC1D31 (Some 128).
Proof.
  split.
  - unfold is_u32, is_u8. lia.
  - apply (fromHex_total_low24 0xFFEC1D31 128); unfold is_u32, is_u8; lia.
Defined.

(** C3. Whatever the red, green and blue values, a [Color] built without an
    alpha argument, by the constructor or by [fromHex], has alpha exactly
    255. *)
Theorem alpha_defaults_to_255 (red green blue hex : Z) :
  Color.a (Color.Color red green blue None) = 255
  /\ Color.a (Color.fromHex hex None) = 255.
Proof. split; reflexivity. Qed.

(** ** The palette *)

(** Each entry of the palette has the three bytes of its literal, most
    significant first, and is opaque. *)
Lemma palette_entries_decompose :
  Forall (fun e : Color.t * Z =>
            fst e = Color.Build (snd e / 65536 mod 256) (snd e / 256 mod 256)
                                (snd e mod 256) 255)
         palette.entries.
Proof. unfold palette.entries. repeat (constructor; [reflexivity |]). constructor. Qed.

Lemma palette_entries_valid :
  Forall (fun e : Color.t * Z => Color.valid (fst e)) palette.entries.
Proof.
  unfold palette.entries.
  repeat (constructor; [repeat split; (reflexivity || discriminate) |]).
  constructor.
Qed.


(** C8, as amended. From [Red500] to [Red600] to [Red700] the red, the green
    and the blue channel each strictly decrease; the alpha channel is 255 in
    all three. *)
Theorem reds_light_to_dark :
  Color.rgb_gt palette.Red500 palette.Red600
  /\ Color.rgb_gt palette.Red600 palette.Red700
  /\ Color.a palette.Red500 = 255
  /\ Color.a palette.Red600 = 255
  /\ Color.a palette.Red700 = 255.
Proof. unfold Color.rgb_gt. repeat split. Qed.

(** C8, as first stated, fails: the alpha channel of [Red500] is not greater
    than that of [Red600] (both are 255), so not every channel decreases. *)
Lemma reds_every_channel_gt_fails :
  ~ (Color.every_channel_gt palette.Red500 palette.Red600
     /\ Color.every_channel_gt palette.Red600 palette.Red700).
Proof.
  unfold Color.every_channel_gt. intros [(_ & _ & _ & Ha) _].
  change (255 < 255) in Ha. revert Ha. apply Z.lt_irrefl.
Qed.

(** ** [FontWeight] *)

Lemma FontWeight_value_inj (v w : FontWeight) :
  FontWeight_value v = FontWeight_value w -> v = w.
Proof. destruct v, w; cbn; intros E; try reflexivity; discriminate E. Qed.

(** C6. [Regular] is 400, [Medium] is 500, [Bold] is 700, and the
    enumeration has no other member. *)
Theorem FontWeight_codes :
  FontWeight_value Regular = 400
  /\ FontWeight_value Medium = 500
  /\ FontWeight_value Bold = 700
  /\ (forall w : FontWeight, w = Regular \/ w = Medium \/ w = Bold).
Proof.
  repeat split. intros w. destruct w; auto.
Qed.

(** ** Component tokens *)

(** C5. [ButtonPrimary] has background [Red500], hover background [Red600]
    and pressed background [Red700]; [ButtonSecondary] has background
    [White]. *)
Theorem button_themes_reference_palette :
  tokens.ButtonTheme.background tokens.ButtonPrimary = palette.Red500
  /\ tokens.ButtonTheme.backgroundHover tokens.ButtonPrimary = palette.Red600
  /\ tokens.ButtonTheme.backgroundPressed tokens.ButtonPrimary = palette.Red700
  /\ tokens.ButtonTheme.background tokens.ButtonSecondary = palette.White.
Proof. repeat split. Qed.

(** C9. The border of [ButtonPrimary] is its background: both are
    [Red500]. *)
Theorem ButtonPrimary_border_is_background :
  tokens.ButtonTheme.border tokens.ButtonPrimary
  = tokens.ButtonTheme.background tokens.ButtonPrimary
  /\ tokens.ButtonTheme.border tokens.ButtonPrimary = palette.Red500
  /\ tokens.ButtonTheme.background tokens.ButtonPrimary = palette.Red500.
Proof. repeat split. Qed.

(** C10. [InputDefault] has the same border colour for focus and for error:
    both are [Red500]. *)
Theorem InputDefault_focus_is_error :
  tokens.InputTheme.borderFocus tokens.InputDefault
  = tokens.InputTheme.borderError tokens.InputDefault
  /\ tokens.InputTheme.borderFocus tokens.InputDefault = palette.Red500
  /\ tokens.InputTheme.borderError tokens.InputDefault = palette.Red500.
Proof. repeat split. Qed.

(** ** Layout scalars *)

(** Every [float] literal of the header is a whole number that binary32
    holds exactly. *)
Lemma f32_of_Z_exact (n : Z) :
  In n (4 :: 8 :: 12 :: 14 :: 16 :: 18 :: 20 :: 24 :: 28 :: 30 :: 36 :: 38
          :: 44 :: 48 :: 60 :: nil) ->
  f32.valid (f32.of_Z n) = true
  /\ f32.to_Q (f32.of_Z n) = Some (inject_Z n).
Proof.
  cbn [In]. intros H.
  repeat (destruct H as [<- | H]; [split; vm_compute; reflexivity |]).
  contradiction.
Qed.

(** C7. The button heights are 30.0, 36.0 and 44.0 with
    [ButtonHeightXS < ButtonHeightSM < ButtonHeightMD], and the border radii
    are 4.0, 8.0 and 12.0 with
    [BorderRadiusSmall < BorderRadiusMedium < BorderRadiusLarge]. *)
Theorem layout_scalars_ordered :
  (f32.to_Q tokens.ButtonHeightXS = Some 30%Q
   /\ f32.to_Q tokens.ButtonHeightSM = Some 36%Q
   /\ f32.to_Q tokens.ButtonHeightMD = Some 44%Q
   /\ f32.ltb tokens.ButtonHeightXS tokens.ButtonHeightSM = true
   /\ f32.ltb tokens.ButtonHeightSM tokens.ButtonHeightMD = true)
  /\ (f32.to_Q tokens.BorderRadiusSmall = Some 4%Q
      /\ f32.to_Q tokens.BorderRadiusMedium = Some 8%Q
      /\ f32.to_Q tokens.BorderRadiusLarge = Some 12%Q
      /\ f32.ltb tokens.BorderRadiusSmall tokens.BorderRadiusMedium = true
      /\ f32.ltb tokens.BorderRadiusMedium tokens.BorderRadiusLarge = true).
Proof. repeat split; vm_compute; reflexivity. Qed.

(** * Further properties of the catalogue *)

(** ** [fromHex] as a decoder of [0xRRGGBB] *)

(** The three channels in arithmetic: the bytes of [hex] at weights
    [65536], [256] and [1]. *)
Lemma fromHex_div_mod (h : Z) (alpha : option Z) :
  Color.fromHex h alpha
  = Color.Color (h / 65536 mod 256) (h / 256 mod 256) (h mod 256) alpha.
Proof.
  unfold Color.fromHex.
  rewrite !to_u8_land_xFF, !land_xFF_mod, !Z.shiftr_div_pow2 by lia.
  reflexivity.
Qed.

(** The low 24 bits of a word are its three low bytes. *)
Lemma low24_bytes (h : Z) :
  h mod 16777216
  = (h / 65536 mod 256) * 65536 + (h / 256 mod 256) * 256 + h mod 256.
Proof.
  pose proof (Z.div_mod h 256 ltac:(lia)) as E0.
  pose proof (Z.div_mod (h / 256) 256 ltac:(lia)) as E1.
  pose proof (Z.div_mod (h / 65536) 256 ltac:(lia)) as E2.
  rewrite Z.div_div in E1 by lia. change (256 * 256) with 65536 in E1.
  pose proof (Z.mod_pos_bound h 256 ltac:(lia)) as B0.
  pose proof (Z.mod_pos_bound (h / 256) 256 ltac:(lia)) as B1.
  pose proof (Z.mod_pos_bound (h / 65536) 256 ltac:(lia)) as B2.
  symmetry. apply Z.mod_unique with (q := h / 65536 / 256); lia.
Qed.

(** Two words with the same colour channels have the same low 24 bits. *)
Lemma fromHex_eq_low24 (h k : Z) (oa ob : option Z) :
  Color.r (Color.fromHex h oa) = Color.r (Color.fromHex k ob) ->
  Color.g (Color.fromHex h oa) = Color.g (Color.fromHex k ob) ->
  Color.b (Color.fromHex h oa) = Color.b (Color.fromHex k ob) ->
  h mod 16777216 = k mod 16777216.
Proof.
  rewrite !fromHex_div_mod. cbn [Color.Color Color.r Color.g Color.b].
  intros Er Eg Eb. rewrite (low24_bytes h), (low24_bytes k).
  now rewrite Er, Eg, Eb.
Qed.

(** On 24-bit literals [fromHex] is one to one. *)
Lemma fromHex_inj_24 (h k : Z) (oa : option Z) :
  0 <= h < 2 ^ 24 -> 0 <= k < 2 ^ 24 ->
  Color.fromHex h oa = Color.fromHex k oa -> h = k.
Proof.
  intros Hh Hk E.
  rewrite <- (Z.mod_small h 16777216), <- (Z.mod_small k 16777216)
    by (change (2 ^ 24) with 16777216 in *; lia).
  apply (fromHex_eq_low24 h k oa oa); now rewrite E.
Qed.

(** Writing the channels of a [Color] as a literal [0xRRGGBB] and decoding
    it with the same alpha gives the colour back: every [Color] whose fields
    are bytes is a value of [fromHex] at a 24-bit literal. *)
Theorem fromHex_of_channels (c : Color.t) :
  Color.valid c ->
  0 <= Color.r c * 65536 + Color.g c * 256 + Color.b c < 2 ^ 24
  /\ Color.fromHex (Color.r c * 65536 + Color.g c * 256 + Color.b c)
                   (Some (Color.a c)) = c.
Proof.
  destruct c as [cr cg cb ca]. unfold Color.valid, is_u8.
  cbn [Color.r Color.g Color.b Color.a]. intros (Hr & Hg & Hb & _).
  split; [change (2 ^ 24) with 16777216; lia |].
  rewrite fromHex_div_mod. unfold Color.Color. f_equal.
  - replace ((cr * 65536 + cg * 256 + cb) / 65536) with cr
      by (apply Z.div_unique with (r := cg * 256 + cb); lia).
    apply Z.mod_small; lia.
  - replace ((cr * 65536 + cg * 256 + cb) / 256) with (cr * 256 + cg)
      by (apply Z.div_unique with (r := cb); lia).
    symmetry. apply Z.mod_unique with (q := cr); lia.
  - symmetry. apply Z.mod_unique with (q := cr * 256 + cg); lia.
Qed.

Lemma fromHex_of_channels_witness :
  Color.valid (Color.Build 59 130 246 64)
  /\ Color.fromHex (59 * 65536 + 130 * 256 + 246) (Some 64)
     = Color.Build 59 130 246 64.
Proof.
  split.
  - unfold Color.valid, is_u8. cbn. lia.
  - apply (fromHex_of_channels (Color.Build 59 130 246 64)).
    unfold Color.valid, is_u8. cbn. lia.
Defined.

(** Read as bytes at weights [65536], [256] and [1], the red, green and blue
    channels of [fromHex(hex, alpha)] spell the low 24 bits of [hex], for
    every [hex] and every alpha: nothing of those bits is lost or moved. *)
Theorem fromHex_spells_low24 (h : Z) (alpha : option Z) :
  Color.r (Color.fromHex h alpha) * 65536
  + Color.g (Color.fromHex h alpha) * 256
  + Color.b (Color.fromHex h alpha) = Z.land h 0xFFFFFF.
Proof.
  rewrite fromHex_div_mod. cbn [Color.Color Color.r Color.g Color.b].
  change 0xFFFFFF with (Z.ones 24). rewrite Z.land_ones by lia.
  change (2 ^ 24) with 16777216. symmetry. apply low24_bytes.
Qed.

(** Two inputs decode to the same colour exactly when they agree on their
    low 24 bits, whatever alpha is passed or left out. *)
Theorem fromHex_eq_iff (h k : Z) (alpha : option Z) :
  Color.fromHex h alpha = Color.fromHex k alpha
  <-> Z.land h 0xFFFFFF = Z.land k 0xFFFFFF.
Proof.
  change 0xFFFFFF with (Z.ones 24). rewrite !Z.land_ones by lia.
  change (2 ^ 24) with 16777216. split.
  - intros E. apply (fromHex_eq_low24 h k alpha alpha); now rewrite E.
  - intros E. unfold Color.fromHex.
    rewrite <- (byte_of_low24 h 16), <- (byte_of_low24 h 8) by lia.
    rewrite <- (byte_of_low24 k 16), <- (byte_of_low24 k 8) by lia.
    rewrite <- (Z.shiftr_0_r h), <- (Z.shiftr_0_r k) at 3.
    rewrite <- (byte_of_low24 h 0), <- (byte_of_low24 k 0) by lia.
    change 0xFFFFFF with (Z.ones 24). rewrite !Z.land_ones by lia.
    change (2 ^ 24) with 16777216. now rewrite E.
Qed.

(** ** The palette as a table *)

(** Every palette literal fits in 24 bits, and the constant built from it is
    a [Color] of four bytes, fully opaque, whose channels spell the literal
    again. *)
Theorem palette_entries_wellformed :
  Forall (fun e : Color.t * Z =>
            0 <= snd e < 2 ^ 24
            /\ Color.valid (fst e)
            /\ Color.a (fst e) = 255
            /\ Color.r (fst e) * 65536 + Color.g (fst e) * 256
               + Color.b (fst e) = snd e)
         palette.entries.
Proof.
  assert (forall h, 0 <= h < 2 ^ 24 ->
            0 <= h < 2 ^ 24
            /\ Color.valid (Color.fromHex h None)
            /\ Color.a (Color.fromHex h None) = 255
            /\ Color.r (Color.fromHex h None) * 65536
               + Color.g (Color.fromHex h None) * 256
               + Color.b (Color.fromHex h None) = h) as Hone.
  { intros h Hh. split; [exact Hh |]. split; [| split].
    - unfold Color.valid.
      cbn [Color.fromHex Color.Color Color.r Color.g Color.b Color.a].
      repeat split; try apply to_u8_is_u8; unfold Color.default_alpha; lia.
    - reflexivity.
    - now apply fromHex_recompose. }
  change palette.entries
    with (map (fun h => (Color.fromHex h None, h)) (map snd palette.entries)).
  rewrite Forall_map. cbn [fst snd].
  apply Forall_forall. intros h Hin. apply Hone.
  cbn in Hin. repeat (destruct Hin as [<- | Hin]; [lia |]). contradiction.
Qed.

(** No two names of the palette stand for the same colour. *)
Theorem palette_entries_distinct :
  NoDup (map fst palette.entries).
Proof.
  change (map fst palette.entries)
    with (map (fun h => Color.fromHex h None) (map snd palette.entries)).
  apply NoDup_map_NoDup_ForallPairs.
  - intros h k Hh Hk. apply fromHex_inj_24.
    + cbn in Hh. repeat (destruct Hh as [<- | Hh]; [lia |]). contradiction.
    + cbn in Hk. repeat (destruct Hk as [<- | Hk]; [lia |]). contradiction.
  - cbn. repeat (constructor; [cbn; intuition discriminate |]). constructor.
Qed.

(** The neutrals darken step by step: from [White] down to [Black] each gray
    has a smaller red, a smaller green and a smaller blue channel than every
    gray declared before it. *)
Theorem grays_light_to_dark :
  StronglySorted Color.rgb_gt palette.grays.
Proof.
  unfold palette.grays.
  repeat (constructor; [| repeat (constructor; [repeat split |]); constructor]).
  constructor.
Qed.

(** ** Typography and [FontWeight] *)

(** A weight is known by its numeric code: two weights have the same code
    only if they are the same enumerator. *)
Theorem FontWeight_value_eq_iff (v w : FontWeight) :
  FontWeight_value v = FontWeight_value w <-> v = w.
Proof.
  split.
  - apply FontWeight_value_inj.
  - intros ->. reflexivity.
Qed.


(** The brand family is set in [Bold] only and the [Inter] family in
    [Regular] only, the two family names differ, and no style of the table
    uses [Medium]. *)
Theorem styles_family_weight :
  typography.FontFamilySans <> typography.FontFamilyInter
  /\ Forall (fun s =>
               (FontSpec.family s = typography.FontFamilySans
                /\ FontSpec.weight s = Bold)
               \/ (FontSpec.family s = typography.FontFamilyInter
                   /\ FontSpec.weight s = Regular))
            typography.styles
  /\ Forall (fun s => FontSpec.weight s <> Medium) typography.styles.
Proof.
  unfold typography.styles. split; [discriminate | split].
  - repeat (constructor; [(left; split; reflexivity)
                          || (right; split; reflexivity) |]).
    constructor.
  - repeat (constructor; [discriminate |]). constructor.
Qed.

(** ** Component themes *)

Ltac colors_differ :=
  repeat (constructor;
          [cbn [In]; intros E;
           repeat (destruct E as [E | E]; [vm_compute in E; discriminate E |]);
           exact E |]);
  constructor.

(** In both button themes the default, hover and pressed backgrounds and the
    text colour are four different colours; the secondary button's border
    differs from all of them as well. *)
Theorem button_states_distinct :
  NoDup (tokens.ButtonTheme.background tokens.ButtonPrimary
         :: tokens.ButtonTheme.backgroundHover tokens.ButtonPrimary
         :: tokens.ButtonTheme.backgroundPressed tokens.ButtonPrimary
         :: tokens.ButtonTheme.text tokens.ButtonPrimary :: nil)
  /\ NoDup (tokens.ButtonTheme.background tokens.ButtonSecondary
            :: tokens.ButtonTheme.backgroundHover tokens.ButtonSecondary
            :: tokens.ButtonTheme.backgroundPressed tokens.ButtonSecondary
            :: tokens.ButtonTheme.text tokens.ButtonSecondary
            :: tokens.ButtonTheme.border tokens.ButtonSecondary :: nil).
Proof. split; colors_differ. Qed.

(** The input's background, text, placeholder, idle border and focus border
    are five different colours; the toggle's two tracks and its thumb are
    three different colours, and so are the checkbox's border, checked
    background and checkmark. *)
Theorem control_states_distinct :
  NoDup (tokens.InputTheme.background tokens.InputDefault
         :: tokens.InputTheme.text tokens.InputDefault
         :: tokens.InputTheme.placeholder tokens.InputDefault
         :: tokens.InputTheme.border tokens.InputDefault
         :: tokens.InputTheme.borderFocus tokens.InputDefault :: nil)
  /\ NoDup (tokens.ToggleTheme.trackOff tokens.ToggleSwitch
            :: tokens.ToggleTheme.trackOn tokens.ToggleSwitch
            :: tokens.ToggleTheme.thumb tokens.ToggleSwitch :: nil)
  /\ NoDup (tokens.ControlTheme.borderUnchecked tokens.CheckboxDefault
            :: tokens.ControlTheme.backgroundChecked tokens.CheckboxDefault
            :: tokens.ControlTheme.checkmark tokens.CheckboxDefault :: nil).
Proof. repeat split; colors_differ. Qed.

(** [InputHeight] is the height of the standard button: it compares equal to
    [ButtonHeightMD], is 44, and is greater than the two smaller button
    heights. *)
Theorem InputHeight_matches_ButtonHeightMD :
  f32.eqb tokens.InputHeight tokens.ButtonHeightMD = true
  /\ f32.to_Q tokens.InputHeight = Some 44%Q
  /\ f32.ltb tokens.ButtonHeightSM tokens.InputHeight = true
  /\ f32.ltb tokens.ButtonHeightXS tokens.InputHeight = true.
Proof. repeat split; vm_compute; reflexivity. Qed.
